(** * cvcio/policy: the ABAC evaluator of [abac.go]

    A shallow embedding of the policy manager: the three attribute
    structs, the option functions that build the rule list, and the
    matching algorithm ([matchesString], [matchesSlice], [matchPolicy],
    [Evaluate]).  Go strings are byte strings and are compared with [==],
    which is [String.eqb] on [string]; Go's [&&] and [||] over pure
    operands are [andb] and [orb].

    [Evaluate] receives its two arguments through pointers; the embedding
    takes the pointed-to structs.  A second embedding, [EvaluatePtr], takes
    the pointers themselves ([None] for nil) and returns a [result], whose
    [Panic] case is the nil dereference.  [WithPoliciesFromFile] is embedded
    over [os.Open] and the JSON decoder taken as parameters. *)

From Stdlib Require Import Bool List String Permutation.
Import ListNotations.
Local Open Scope string_scope.

(** ** Data model *)

Module PolicySpec.

Record t : Type := mk
  { Role : string;
    User : string;
    Group : string;
    Resource : string;
    Namespace : string;
    ReadOnly : bool;
    NonResourcePath : string }.

End PolicySpec.

Module UserAttributes.

Record t : Type := mk
  { UserID : string;
    GroupID : string;
    Roles : list string }.

End UserAttributes.

Module ResourceAttributes.

Record t : Type := mk
  { Resource : string;
    Namespace : string;
    ReadOnly : bool }.

End ResourceAttributes.

Record PolicyManager : Type := mkPolicyManager
  { policies : list PolicySpec.t }.

(** A [PolicyOption] is a closure that mutates the manager it is given;
    here it returns the updated manager. *)
Definition PolicyOption : Type := PolicyManager -> PolicyManager.

(** ** Construction *)

Definition defaultPolicies : list PolicySpec.t :=
  [ PolicySpec.mk "*" "*" "*" "*" "*" true "*";
    PolicySpec.mk "admin" "*" "*" "*" "*" false "*" ].

Definition WithDefaultPolicies : PolicyOption :=
  fun p => mkPolicyManager (policies p ++ defaultPolicies).

Definition WithPolicies (ps : list PolicySpec.t) : PolicyOption :=
  fun p => mkPolicyManager (policies p ++ ps).

Definition NewPolicyManager (opts : list PolicyOption) : PolicyManager :=
  fold_left (fun p opt => opt p) opts (mkPolicyManager []).

(** ** Matching *)

Definition matchesString (pattern value : string) : bool :=
  (pattern =? "*") || (pattern =? "") || (pattern =? value).

(** The [for _, v := range list] loop of [matchesSlice]. *)
Fixpoint rangeList (pattern : string) (list : list string) : bool :=
  match list with
  | [] => false
  | v :: rest => if v =? pattern then true else rangeList pattern rest
  end.

Definition matchesSlice (pattern : string) (list : list string) : bool :=
  if (pattern =? "*") || (pattern =? "") then true
  else rangeList pattern list.

(** The receiver of [matchPolicy] is not used by its body and is left out. *)
Definition matchPolicy (policy : PolicySpec.t) (user : UserAttributes.t)
    (resource : ResourceAttributes.t) : bool :=
  matchesSlice (PolicySpec.Role policy) (UserAttributes.Roles user) &&
  matchesString (PolicySpec.User policy) (UserAttributes.UserID user) &&
  matchesString (PolicySpec.Group policy) (UserAttributes.GroupID user) &&
  matchesString (PolicySpec.Resource policy)
    (ResourceAttributes.Resource resource) &&
  matchesString (PolicySpec.Namespace policy)
    (ResourceAttributes.Namespace resource) &&
  matchesString (PolicySpec.NonResourcePath policy)
    (ResourceAttributes.Resource resource) &&
  Bool.eqb (PolicySpec.ReadOnly policy) (ResourceAttributes.ReadOnly resource).

(** The [for _, policy := range p.policies] loop of [Evaluate]. *)
Fixpoint rangePolicies (ps : list PolicySpec.t) (user : UserAttributes.t)
    (resource : ResourceAttributes.t) : bool :=
  match ps with
  | [] => false
  | policy :: rest =>
      if matchPolicy policy user resource then true
      else rangePolicies rest user resource
  end.

Definition Evaluate (p : PolicyManager) (user : UserAttributes.t)
    (resource : ResourceAttributes.t) : bool :=
  rangePolicies (policies p) user resource.

(** ** Vocabulary of the statements *)

(** A pattern is a wildcard when it is ["*"] or the empty string. *)
Definition Wildcard (pattern : string) : Prop :=
  pattern = "*" \/ pattern = "".

(** The six pattern fields of a rule, with their reader and writer. *)
Inductive PatternField : Type :=
  | FRole | FUser | FGroup | FResource | FNamespace | FNonResourcePath.

Definition getField (f : PatternField) (r : PolicySpec.t) : string :=
  match f with
  | FRole => PolicySpec.Role r
  | FUser => PolicySpec.User r
  | FGroup => PolicySpec.Group r
  | FResource => PolicySpec.Resource r
  | FNamespace => PolicySpec.Namespace r
  | FNonResourcePath => PolicySpec.NonResourcePath r
  end.

Definition setField (f : PatternField) (s : string) (r : PolicySpec.t)
    : PolicySpec.t :=
  let '(PolicySpec.mk ro us gr re ns rdo nrp) := r in
  match f with
  | FRole => PolicySpec.mk s us gr re ns rdo nrp
  | FUser => PolicySpec.mk ro s gr re ns rdo nrp
  | FGroup => PolicySpec.mk ro us s re ns rdo nrp
  | FResource => PolicySpec.mk ro us gr s ns rdo nrp
  | FNamespace => PolicySpec.mk ro us gr re s rdo nrp
  | FNonResourcePath => PolicySpec.mk ro us gr re ns rdo s
  end.

(** The store holding exactly the given rules. *)
Definition storeOf (ps : list PolicySpec.t) : PolicyManager :=
  NewPolicyManager [WithPolicies ps].

(** The rule of scenario A as the specification writes it: user pattern
    ["*"], group, namespace and nonResourcePath left empty. *)
Definition scenarioRule : PolicySpec.t :=
  PolicySpec.mk "admin" "*" "" "resource1" "" false "".

(** The rule of the test file, [{Role: "admin", User: "user1",
    Resource: "resource1"}]; the other fields are zero values. *)
Definition testRule : PolicySpec.t :=
  PolicySpec.mk "admin" "user1" "" "resource1" "" false "".

Definition scenarioBUser (groupID : string) : UserAttributes.t :=
  UserAttributes.mk "user2" groupID ["admin"].

Definition scenarioResource (namespace : string) : ResourceAttributes.t :=
  ResourceAttributes.mk "resource1" namespace false.

(** Two role lists with the same entries, whatever their order and
    multiplicity. *)
Definition SameRoles (roles roles' : list string) : Prop :=
  forall role, In role roles <-> In role roles'.

Definition withRoles (roles : list string) (user : UserAttributes.t)
    : UserAttributes.t :=
  UserAttributes.mk (UserAttributes.UserID user) (UserAttributes.GroupID user)
    roles.

(** ** Panics and nil pointers *)

(** What a Go call gives: a value, or a panic with its message. *)
Inductive result (A : Type) : Type :=
  | Ok (a : A)
  | Panic (msg : string).

Arguments Ok {A} a.
Arguments Panic {A} msg.

Definition bind {A B : Type} (c : result A) (k : A -> result B) : result B :=
  match c with
  | Ok a => k a
  | Panic msg => Panic msg
  end.

Notation "x <- c ;; k" := (bind c (fun x => k))
  (at level 61, c at next level, right associativity).

Definition nilDereference : string :=
  "runtime error: invalid memory address or nil pointer dereference".

(** Reading a field through a pointer. *)
Definition deref {A : Type} (ptr : option A) : result A :=
  match ptr with
  | Some a => Ok a
  | None => Panic nilDereference
  end.

(** [matchPolicy] on the pointers it receives.  The operands of [&&] are
    evaluated from left to right and the evaluation stops at the first false
    one: [user] is read by the first operand, [resource] only by the fourth,
    when the three before it are true. *)
Definition matchPolicyPtr (policy : PolicySpec.t)
    (user : option UserAttributes.t) (resource : option ResourceAttributes.t)
    : result bool :=
  u <- deref user ;;
  if negb (matchesSlice (PolicySpec.Role policy) (UserAttributes.Roles u))
  then Ok false
  else if negb (matchesString (PolicySpec.User policy)
                  (UserAttributes.UserID u))
  then Ok false
  else if negb (matchesString (PolicySpec.Group policy)
                  (UserAttributes.GroupID u))
  then Ok false
  else
    r <- deref resource ;;
    Ok (matchesString (PolicySpec.Resource policy)
          (ResourceAttributes.Resource r) &&
        matchesString (PolicySpec.Namespace policy)
          (ResourceAttributes.Namespace r) &&
        matchesString (PolicySpec.NonResourcePath policy)
          (ResourceAttributes.Resource r) &&
        Bool.eqb (PolicySpec.ReadOnly policy) (ResourceAttributes.ReadOnly r)).

Fixpoint rangePoliciesPtr (ps : list PolicySpec.t)
    (user : option UserAttributes.t) (resource : option ResourceAttributes.t)
    : result bool :=
  match ps with
  | [] => Ok false
  | policy :: rest =>
      m <- matchPolicyPtr policy user resource ;;
      if m then Ok true else rangePoliciesPtr rest user resource
  end.

Definition EvaluatePtr (p : PolicyManager) (user : option UserAttributes.t)
    (resource : option ResourceAttributes.t) : result bool :=
  rangePoliciesPtr (policies p) user resource.

(** The part of [matchPolicy] that reads the user only: its first three
    operands. *)
Definition userSideMatches (policy : PolicySpec.t) (u : UserAttributes.t)
    : bool :=
  matchesSlice (PolicySpec.Role policy) (UserAttributes.Roles u) &&
  matchesString (PolicySpec.User policy) (UserAttributes.UserID u) &&
  matchesString (PolicySpec.Group policy) (UserAttributes.GroupID u).

(** ** Options that can panic *)

(** What a Go function with an [error] result gives. *)
Inductive errorOr (A : Type) : Type :=
  | Val (a : A)
  | Err (err : string).

Arguments Val {A} a.
Arguments Err {A} err.

(** An option whose closure may panic instead of returning. *)
Definition PanickingOption : Type := PolicyManager -> result PolicyManager.

(** An option that always returns. *)
Definition returning (opt : PolicyOption) : PanickingOption :=
  fun p => Ok (opt p).

(** The loop of [NewPolicyManager] over options that may panic: a panic
    leaves the loop and the function, and no manager is returned. *)
Fixpoint applyOptions (opts : list PanickingOption) (p : PolicyManager)
    : result PolicyManager :=
  match opts with
  | [] => Ok p
  | opt :: rest => p' <- opt p ;; applyOptions rest p'
  end.

Definition NewPolicyManagerPanicking (opts : list PanickingOption)
    : result PolicyManager :=
  applyOptions opts (mkPolicyManager []).

Definition newline : string := String (Ascii.ascii_of_nat 10) EmptyString.

Section FromFile.

(** [os.Open] and [json.NewDecoder(file).Decode] into a [[]PolicySpec]
    belong to the Go library; they are parameters, with the text of the
    error as [%v] prints it. *)
Variable File : Type.
Variable osOpen : string -> errorOr File.
Variable decodePolicies : File -> errorOr (list PolicySpec.t).

Definition WithPoliciesFromFile (filename : string) : PanickingOption :=
  fun p =>
    match osOpen filename with
    | Err err => Panic ("failed to open policies file: " ++ err)
    | Val file =>
        match decodePolicies file with
        | Err err =>
            Panic ("failed to decode policies from file: " ++ err ++ newline)
        | Val newPolicies => Ok (mkPolicyManager (policies p ++ newPolicies))
        end
    end.

End FromFile.

(** ** Basic facts about the matchers *)

Lemma wildcard_eqb (pattern : string) :
  (pattern =? "*") || (pattern =? "") = true <-> Wildcard pattern.
Proof.
  unfold Wildcard.
  rewrite orb_true_iff, !String.eqb_eq.
  reflexivity.
Qed.

Lemma matchesString_true (pattern value : string) :
  matchesString pattern value = true <-> Wildcard pattern \/ pattern = value.
Proof.
  unfold matchesString.
  rewrite orb_true_iff, wildcard_eqb, String.eqb_eq.
  reflexivity.
Qed.

Lemma rangeList_In (pattern : string) (l : list string) :
  rangeList pattern l = true <-> In pattern l.
Proof.
  induction l as [|v rest IH]; simpl.
  - split; [discriminate | contradiction].
  - destruct (v =? pattern) eqn:E.
    + apply String.eqb_eq in E. tauto.
    + apply String.eqb_neq in E. rewrite IH. tauto.
Qed.

Lemma matchesSlice_true (pattern : string) (l : list string) :
  matchesSlice pattern l = true <-> Wildcard pattern \/ In pattern l.
Proof.
  unfold matchesSlice.
  destruct ((pattern =? "*") || (pattern =? "")) eqn:E.
  - apply wildcard_eqb in E. tauto.
  - rewrite rangeList_In. split; [tauto|].
    intros [W|H]; [|exact H].
    apply wildcard_eqb in W. congruence.
Qed.

Lemma matchesString_wildcard (pattern value : string) :
  Wildcard pattern -> matchesString pattern value = true.
Proof. intros W. apply matchesString_true. now left. Qed.

Lemma matchesSlice_wildcard (pattern : string) (l : list string) :
  Wildcard pattern -> matchesSlice pattern l = true.
Proof. intros W. apply matchesSlice_true. now left. Qed.

Lemma rangePolicies_existsb ps user resource :
  rangePolicies ps user resource =
  existsb (fun policy => matchPolicy policy user resource) ps.
Proof.
  induction ps as [|policy rest IH]; simpl; [reflexivity|].
  rewrite IH. now destruct (matchPolicy policy user resource).
Qed.

Lemma rangePolicies_app s t user resource :
  rangePolicies (s ++ t) user resource =
  rangePolicies s user resource || rangePolicies t user resource.
Proof.
  rewrite !rangePolicies_existsb. apply existsb_app.
Qed.

Lemma rangePolicies_true ps user resource :
  rangePolicies ps user resource = true <->
  exists policy, In policy ps /\ matchPolicy policy user resource = true.
Proof.
  rewrite rangePolicies_existsb. apply existsb_exists.
Qed.

(** ** The matching predicate *)

Lemma matchPolicy_true policy user resource :
  matchPolicy policy user resource = true <->
  ( (Wildcard (PolicySpec.Role policy) \/
     In (PolicySpec.Role policy) (UserAttributes.Roles user)) /\
    (Wildcard (PolicySpec.User policy) \/
     PolicySpec.User policy = UserAttributes.UserID user) /\
    (Wildcard (PolicySpec.Group policy) \/
     PolicySpec.Group policy = UserAttributes.GroupID user) /\
    (Wildcard (PolicySpec.Resource policy) \/
     PolicySpec.Resource policy = ResourceAttributes.Resource resource) /\
    (Wildcard (PolicySpec.Namespace policy) \/
     PolicySpec.Namespace policy = ResourceAttributes.Namespace resource) /\
    (Wildcard (PolicySpec.NonResourcePath policy) \/
     PolicySpec.NonResourcePath policy =
       ResourceAttributes.Resource resource) /\
    PolicySpec.ReadOnly policy = ResourceAttributes.ReadOnly resource ).
Proof.
  unfold matchPolicy.
  rewrite !andb_true_iff, matchesSlice_true, !matchesString_true, eqb_true_iff.
  tauto.
Qed.

(** C1: a rule matches a request exactly when the seven conditions hold
    together: role pattern wildcard or among the user's roles; user pattern
    wildcard or equal to the user id; group pattern wildcard or equal to the
    group id; resource pattern wildcard or equal to the resource name;
    namespace pattern wildcard or equal to the namespace; nonResourcePath
    pattern wildcard or equal to the resource name; and the two read-only
    flags equal. *)
Theorem matchPolicy_seven_conditions :
  forall (policy : PolicySpec.t) (user : UserAttributes.t)
         (resource : ResourceAttributes.t),
    matchPolicy policy user resource = true <->
    ( (PolicySpec.Role policy = "*" \/ PolicySpec.Role policy = "" \/
       In (PolicySpec.Role policy) (UserAttributes.Roles user)) /\
      (PolicySpec.User policy = "*" \/ PolicySpec.User policy = "" \/
       PolicySpec.User policy = UserAttributes.UserID user) /\
      (PolicySpec.Group policy = "*" \/ PolicySpec.Group policy = "" \/
       PolicySpec.Group policy = UserAttributes.GroupID user) /\
      (PolicySpec.Resource policy = "*" \/ PolicySpec.Resource policy = "" \/
       PolicySpec.Resource policy = ResourceAttributes.Resource resource) /\
      (PolicySpec.Namespace policy = "*" \/ PolicySpec.Namespace policy = "" \/
       PolicySpec.Namespace policy = ResourceAttributes.Namespace resource) /\
      (PolicySpec.NonResourcePath policy = "*" \/
       PolicySpec.NonResourcePath policy = "" \/
       PolicySpec.NonResourcePath policy =
         ResourceAttributes.Resource resource) /\
      PolicySpec.ReadOnly policy = ResourceAttributes.ReadOnly resource ).
Proof.
  intros policy user resource.
  rewrite matchPolicy_true.
  unfold Wildcard. tauto.
Qed.

(** ** Evaluation *)

(** C2: [Evaluate] is true exactly when at least one rule of the store
    matches the request; the loop goes through the store in order and
    answers true at the first matching rule without looking at the rest;
    the empty store gives false for every request. *)
Theorem Evaluate_any_rule :
  (forall p user resource,
     Evaluate p user resource = true <->
     exists policy,
       In policy (policies p) /\ matchPolicy policy user resource = true) /\
  (forall policy rest user resource,
     Evaluate (mkPolicyManager (policy :: rest)) user resource =
     if matchPolicy policy user resource then true
     else Evaluate (mkPolicyManager rest) user resource) /\
  (forall user resource,
     Evaluate (mkPolicyManager []) user resource = false /\
     Evaluate (NewPolicyManager []) user resource = false).
Proof.
  split; [|split].
  - intros p user resource. apply rangePolicies_true.
  - reflexivity.
  - intros user resource. split; reflexivity.
Qed.

(** ** The scenarios of the test suite *)

(** C3, as stated, fails: with the user pattern ["*"] the rule of scenario A
    matches user2, so [Evaluate] does not return false. *)
Lemma scenarioB_wildcard_user_not_false :
  Evaluate (storeOf [scenarioRule]) (scenarioBUser "") (scenarioResource "")
  <> false.
Proof. vm_compute. discriminate. Qed.

(** C3, amended: with the rule as the scenario writes it (user pattern
    ["*"]) [Evaluate] returns true for user2, whatever the group id and the
    namespace; it returns false when the rule's user pattern is ["user1"],
    as in the test file. *)
Theorem scenarioB_result :
  forall groupID namespace,
    Evaluate (storeOf [scenarioRule]) (scenarioBUser groupID)
      (scenarioResource namespace) = true /\
    Evaluate (storeOf [testRule]) (scenarioBUser groupID)
      (scenarioResource namespace) = false.
Proof.
  intros groupID namespace. split; reflexivity.
Qed.

(** ** The read-only flag *)

(** C4: when the six pattern fields of a rule are wildcards, [Evaluate] over
    the store holding just that rule returns whether the request's read-only
    flag equals the rule's.  The read-only flag has no wildcard: whatever
    its patterns, a rule with readOnly false does not match a read-only
    request, and a rule with readOnly true does not match a request that is
    not read-only. *)
Theorem Evaluate_all_wildcards :
  forall (rule : PolicySpec.t) (user : UserAttributes.t)
         (resource : ResourceAttributes.t),
    ((forall f, Wildcard (getField f rule)) ->
     Evaluate (storeOf [rule]) user resource =
       Bool.eqb (ResourceAttributes.ReadOnly resource)
                (PolicySpec.ReadOnly rule)) /\
    (PolicySpec.ReadOnly rule = false ->
     ResourceAttributes.ReadOnly resource = true ->
     matchPolicy rule user resource = false /\
     Evaluate (storeOf [rule]) user resource = false) /\
    (PolicySpec.ReadOnly rule = true ->
     ResourceAttributes.ReadOnly resource = false ->
     matchPolicy rule user resource = false /\
     Evaluate (storeOf [rule]) user resource = false).
Proof.
  intros rule user resource.
  assert (N : PolicySpec.ReadOnly rule <> ResourceAttributes.ReadOnly resource
              -> matchPolicy rule user resource = false /\
                 Evaluate (storeOf [rule]) user resource = false).
  { intros D.
    assert (M : matchPolicy rule user resource = false).
    { destruct (matchPolicy rule user resource) eqn:E; [|reflexivity].
      apply matchPolicy_true in E.
      destruct E as (_ & _ & _ & _ & _ & _ & RO). contradiction. }
    split; [exact M|].
    unfold Evaluate; simpl. now rewrite M. }
  split; [|split].
  - intros W.
    assert (M : matchPolicy rule user resource =
                Bool.eqb (ResourceAttributes.ReadOnly resource)
                         (PolicySpec.ReadOnly rule)).
    { unfold matchPolicy.
      rewrite (matchesSlice_wildcard _ _ (W FRole)).
      rewrite (matchesString_wildcard _ _ (W FUser)).
      rewrite (matchesString_wildcard _ _ (W FGroup)).
      rewrite (matchesString_wildcard _ _ (W FResource)).
      rewrite (matchesString_wildcard _ _ (W FNamespace)).
      rewrite (matchesString_wildcard _ _ (W FNonResourcePath)).
      simpl.
      now destruct (PolicySpec.ReadOnly rule),
                   (ResourceAttributes.ReadOnly resource). }
    unfold Evaluate; simpl. rewrite M.
    now destruct (Bool.eqb _ _).
  - intros Hp Hr. apply N. rewrite Hp, Hr. discriminate.
  - intros Hp Hr. apply N. rewrite Hp, Hr. discriminate.
Qed.

Lemma Evaluate_all_wildcards_witness :
  Evaluate (storeOf [PolicySpec.mk "*" "" "*" "" "*" false ""])
    (UserAttributes.mk "user1" "group1" ["dev"])
    (ResourceAttributes.mk "resource1" "namespace1" true) =
  Bool.eqb true false /\
  (matchPolicy testRule
     (UserAttributes.mk "user1" "group1" ["admin"])
     (ResourceAttributes.mk "resource1" "namespace1" true) = false /\
   Evaluate (storeOf [testRule])
     (UserAttributes.mk "user1" "group1" ["admin"])
     (ResourceAttributes.mk "resource1" "namespace1" true) = false) /\
  (matchPolicy (PolicySpec.mk "admin" "user1" "" "resource1" "" true "")
     (UserAttributes.mk "user1" "group1" ["admin"])
     (ResourceAttributes.mk "resource1" "namespace1" false) = false /\
   Evaluate
     (storeOf [PolicySpec.mk "admin" "user1" "" "resource1" "" true ""])
     (UserAttributes.mk "user1" "group1" ["admin"])
     (ResourceAttributes.mk "resource1" "namespace1" false) = false).
Proof.
  split; [|split].
  - refine (proj1 (Evaluate_all_wildcards
                     (PolicySpec.mk "*" "" "*" "" "*" false "")
                     (UserAttributes.mk "user1" "group1" ["dev"])
                     (ResourceAttributes.mk "resource1" "namespace1" true))
              _).
    intros f.
    destruct f; [left | right | left | right | left | right]; reflexivity.
  - refine (proj1 (proj2 (Evaluate_all_wildcards testRule
                            (UserAttributes.mk "user1" "group1" ["admin"])
                            (ResourceAttributes.mk "resource1" "namespace1"
                               true)))
              _ _); reflexivity.
  - refine (proj2 (proj2 (Evaluate_all_wildcards
                            (PolicySpec.mk "admin" "user1" "" "resource1" ""
                               true "")
                            (UserAttributes.mk "user1" "group1" ["admin"])
                            (ResourceAttributes.mk "resource1" "namespace1"
                               false)))
              _ _); reflexivity.
Defined.

(** ** Wildcards *)

Lemma matchPolicy_setField_wildcard f pattern rule user resource :
  Wildcard (getField f rule) -> Wildcard pattern ->
  matchPolicy (setField f pattern rule) user resource =
  matchPolicy rule user resource.
Proof.
  destruct rule as [ro us gr re ns rdo nrp].
  intros W W'.
  destruct f; simpl in W; unfold matchPolicy; simpl;
    rewrite ?(matchesSlice_wildcard _ _ W), ?(matchesSlice_wildcard _ _ W'),
            ?(matchesString_wildcard _ _ W), ?(matchesString_wildcard _ _ W');
    reflexivity.
Qed.

Lemma rangePolicies_replace before after rule rule' user resource :
  matchPolicy rule' user resource = matchPolicy rule user resource ->
  rangePolicies (before ++ rule' :: after) user resource =
  rangePolicies (before ++ rule :: after) user resource.
Proof.
  intros E. rewrite !rangePolicies_app. simpl. now rewrite E.
Qed.

(** C5: ["*"] and the empty string are interchangeable: in any of the six
    pattern fields of a rule, replacing one wildcard by the other changes
    neither the rule's match result nor the result of [Evaluate] over a
    store that holds the rule, for every request. *)
Theorem wildcard_interchangeable :
  forall (f : PatternField) (rule : PolicySpec.t) (pattern : string),
    Wildcard (getField f rule) -> Wildcard pattern ->
    (forall user resource,
       matchPolicy (setField f pattern rule) user resource =
       matchPolicy rule user resource) /\
    (forall before after user resource,
       Evaluate (mkPolicyManager (before ++ setField f pattern rule :: after))
         user resource =
       Evaluate (mkPolicyManager (before ++ rule :: after)) user resource).
Proof.
  intros f rule pattern W W'. split.
  - intros user resource. now apply matchPolicy_setField_wildcard.
  - intros before after user resource. unfold Evaluate; simpl.
    apply rangePolicies_replace. now apply matchPolicy_setField_wildcard.
Qed.

Lemma wildcard_interchangeable_witness :
  matchPolicy (setField FUser "" (PolicySpec.mk "admin" "*" "" "r1" "" true ""))
    (UserAttributes.mk "user1" "group1" ["admin"])
    (ResourceAttributes.mk "r1" "ns1" true) =
  matchPolicy (PolicySpec.mk "admin" "*" "" "r1" "" true "")
    (UserAttributes.mk "user1" "group1" ["admin"])
    (ResourceAttributes.mk "r1" "ns1" true).
Proof.
  refine (proj1 (wildcard_interchangeable FUser
                   (PolicySpec.mk "admin" "*" "" "r1" "" true "") "" _ _)
                _ _).
  - left; reflexivity.
  - right; reflexivity.
Defined.

(** ** Order of the rules and of the roles *)

Lemma rangePolicies_Permutation ps ps' user resource :
  Permutation ps ps' ->
  rangePolicies ps user resource = rangePolicies ps' user resource.
Proof.
  induction 1 as [|x l l' _ IH|x y l|l l' l'' _ IH1 _ IH2]; simpl.
  - reflexivity.
  - now rewrite IH.
  - now destruct (matchPolicy x user resource),
                 (matchPolicy y user resource).
  - now rewrite IH1.
Qed.

(** C6: reordering the rules of a store does not change the result of
    [Evaluate] for a fixed request. *)
Theorem Evaluate_order_independent :
  forall (ps ps' : list PolicySpec.t) (user : UserAttributes.t)
         (resource : ResourceAttributes.t),
    Permutation ps ps' ->
    Evaluate (mkPolicyManager ps) user resource =
    Evaluate (mkPolicyManager ps') user resource.
Proof.
  intros ps ps' user resource P. unfold Evaluate; simpl.
  now apply rangePolicies_Permutation.
Qed.

Lemma Evaluate_order_independent_witness :
  Evaluate (mkPolicyManager [testRule; scenarioRule])
    (scenarioBUser "group1") (scenarioResource "namespace1") =
  Evaluate (mkPolicyManager [scenarioRule; testRule])
    (scenarioBUser "group1") (scenarioResource "namespace1").
Proof.
  apply Evaluate_order_independent.
  apply perm_swap.
Defined.

Lemma matchesSlice_SameRoles pattern roles roles' :
  SameRoles roles roles' ->
  matchesSlice pattern roles = matchesSlice pattern roles'.
Proof.
  intros S. apply Bool.eq_iff_eq_true.
  rewrite !matchesSlice_true. now rewrite (S pattern).
Qed.

Lemma matchPolicy_SameRoles rule user roles' resource :
  SameRoles (UserAttributes.Roles user) roles' ->
  matchPolicy rule (withRoles roles' user) resource =
  matchPolicy rule user resource.
Proof.
  intros S. unfold matchPolicy; simpl.
  now rewrite (matchesSlice_SameRoles _ _ _ S).
Qed.

Lemma rangePolicies_SameRoles ps user roles' resource :
  SameRoles (UserAttributes.Roles user) roles' ->
  rangePolicies ps (withRoles roles' user) resource =
  rangePolicies ps user resource.
Proof.
  intros S. induction ps as [|rule rest IH]; simpl; [reflexivity|].
  now rewrite IH, (matchPolicy_SameRoles _ _ _ _ S).
Qed.

(** C7: the roles list is treated as a set: a role pattern that is not a
    wildcard matches exactly when it is an entry of the list, and replacing
    the list by one with the same entries (a permutation of it, or one with
    entries repeated) changes neither [matchPolicy] nor [Evaluate]. *)
Theorem roles_as_set :
  forall (roles' : list string) (user : UserAttributes.t),
    (Permutation (UserAttributes.Roles user) roles' \/
     SameRoles (UserAttributes.Roles user) roles') ->
    (forall pattern,
       ~ Wildcard pattern ->
       (matchesSlice pattern (UserAttributes.Roles user) = true <->
        In pattern (UserAttributes.Roles user))) /\
    (forall rule resource,
       matchPolicy rule (withRoles roles' user) resource =
       matchPolicy rule user resource) /\
    (forall p resource,
       Evaluate p (withRoles roles' user) resource =
       Evaluate p user resource).
Proof.
  intros roles' user H.
  assert (S : SameRoles (UserAttributes.Roles user) roles').
  { destruct H as [P|S]; [|exact S].
    intros role. split; apply Permutation_in;
      [exact P | now apply Permutation_sym]. }
  split; [|split].
  - intros pattern NW. rewrite matchesSlice_true. tauto.
  - intros rule resource. now apply matchPolicy_SameRoles.
  - intros p resource. unfold Evaluate.
    now apply rangePolicies_SameRoles.
Qed.

Lemma roles_as_set_witness :
  matchPolicy testRule
    (withRoles ["admin"; "dev"; "admin"]
       (UserAttributes.mk "user1" "group1" ["dev"; "admin"]))
    (scenarioResource "namespace1") =
  matchPolicy testRule (UserAttributes.mk "user1" "group1" ["dev"; "admin"])
    (scenarioResource "namespace1").
Proof.
  refine (proj1 (proj2 (roles_as_set ["admin"; "dev"; "admin"]
                          (UserAttributes.mk "user1" "group1" ["dev"; "admin"])
                          _)) _ _).
  right. intros role. simpl. tauto.
Defined.

(** ** The default table *)

Lemma rangePolicies_In rule ps user resource :
  In rule ps -> matchPolicy rule user resource = true ->
  rangePolicies ps user resource = true.
Proof.
  intros HIn Hm. apply rangePolicies_true. now exists rule.
Qed.

(** C8: [WithDefaultPolicies] appends exactly two rules, first the all
    wildcard rule with readOnly true, then the rule for role ["admin"] with
    readOnly false; a store that contains them evaluates every read-only
    request to true, and every request that is not read-only to true when
    ["admin"] is among the user's roles. *)
Theorem default_table :
  defaultPolicies =
    [ PolicySpec.mk "*" "*" "*" "*" "*" true "*";
      PolicySpec.mk "admin" "*" "*" "*" "*" false "*" ] /\
  (forall p,
     policies (WithDefaultPolicies p) =
     (policies p ++
      [ PolicySpec.mk "*" "*" "*" "*" "*" true "*";
        PolicySpec.mk "admin" "*" "*" "*" "*" false "*" ])%list) /\
  (forall (before after : list PolicySpec.t) (user : UserAttributes.t)
          (resource : ResourceAttributes.t),
     (ResourceAttributes.ReadOnly resource = true \/
      (ResourceAttributes.ReadOnly resource = false /\
       In "admin" (UserAttributes.Roles user))) ->
     Evaluate
       (WithPolicies after (WithDefaultPolicies (mkPolicyManager before)))
       user resource = true).
Proof.
  split; [reflexivity | split; [reflexivity|]].
  intros before after user resource H.
  unfold Evaluate; simpl.
  rewrite !rangePolicies_app.
  assert (D : rangePolicies defaultPolicies user resource = true).
  { destruct H as [RO | [RW Adm]].
    - apply rangePolicies_In
        with (rule := PolicySpec.mk "*" "*" "*" "*" "*" true "*").
      + now left.
      + unfold matchPolicy; simpl. now rewrite RO.
    - apply rangePolicies_In
        with (rule := PolicySpec.mk "admin" "*" "*" "*" "*" false "*").
      + right; now left.
      + unfold matchPolicy; simpl. rewrite RW.
        assert (R : matchesSlice "admin" (UserAttributes.Roles user) = true)
          by (apply matchesSlice_true; now right).
        now rewrite R. }
  rewrite D. now rewrite orb_true_r.
Qed.

Lemma default_table_witness :
  Evaluate
    (WithPolicies [testRule] (WithDefaultPolicies (mkPolicyManager [testRule])))
    (UserAttributes.mk "user9" "group1" ["dev"; "admin"])
    (ResourceAttributes.mk "resource7" "namespace1" false) = true.
Proof.
  refine (proj2 (proj2 default_table) [testRule] [testRule]
            (UserAttributes.mk "user9" "group1" ["dev"; "admin"])
            (ResourceAttributes.mk "resource7" "namespace1" false) _).
  right. split; [reflexivity | right; left; reflexivity].
Defined.

(** ** Rules that cannot match *)

(** C9: a rule whose Resource and NonResourcePath patterns are both not
    wildcards and differ from each other matches no request, because both
    are compared with the resource name; adding it to a store changes no
    result of [Evaluate]. *)
Theorem dead_rule :
  forall (rule : PolicySpec.t),
    ~ Wildcard (PolicySpec.Resource rule) ->
    ~ Wildcard (PolicySpec.NonResourcePath rule) ->
    PolicySpec.Resource rule <> PolicySpec.NonResourcePath rule ->
    (forall user resource, matchPolicy rule user resource = false) /\
    (forall before after user resource,
       Evaluate (mkPolicyManager (before ++ rule :: after)) user resource =
       Evaluate (mkPolicyManager (before ++ after)) user resource).
Proof.
  intros rule NR NP Neq.
  assert (M : forall user resource, matchPolicy rule user resource = false).
  { intros user resource.
    destruct (matchPolicy rule user resource) eqn:E; [|reflexivity].
    apply matchPolicy_true in E.
    destruct E as (_ & _ & _ & R & _ & P & _).
    unfold Wildcard in NR, NP.
    assert (PolicySpec.Resource rule = ResourceAttributes.Resource resource)
      by tauto.
    assert (PolicySpec.NonResourcePath rule =
            ResourceAttributes.Resource resource) by tauto.
    congruence. }
  split; [exact M|].
  intros before after user resource. unfold Evaluate; simpl.
  rewrite !rangePolicies_app. simpl. now rewrite M.
Qed.

Lemma dead_rule_witness :
  matchPolicy (PolicySpec.mk "*" "*" "*" "pods" "*" true "/healthz")
    (UserAttributes.mk "user1" "group1" ["admin"])
    (ResourceAttributes.mk "pods" "namespace1" true) = false.
Proof.
  refine (proj1 (dead_rule
                   (PolicySpec.mk "*" "*" "*" "pods" "*" true "/healthz")
                   _ _ _)
            (UserAttributes.mk "user1" "group1" ["admin"])
            (ResourceAttributes.mk "pods" "namespace1" true)).
  - intros [H|H]; discriminate H.
  - intros [H|H]; discriminate H.
  - simpl. discriminate.
Defined.

(** ** Growing a store *)

(** C10: [Evaluate] over the concatenation of two rule lists is the
    disjunction of [Evaluate] over each; so the rules appended by a further
    [WithPolicies] or [WithDefaultPolicies] option never turn a true result
    into false. *)
Theorem Evaluate_app :
  forall (s t : list PolicySpec.t) (user : UserAttributes.t)
         (resource : ResourceAttributes.t),
    Evaluate (mkPolicyManager (s ++ t)) user resource =
      Evaluate (mkPolicyManager s) user resource ||
      Evaluate (mkPolicyManager t) user resource /\
    (Evaluate (mkPolicyManager s) user resource = true ->
     Evaluate (WithPolicies t (mkPolicyManager s)) user resource = true /\
     Evaluate (WithDefaultPolicies (mkPolicyManager s)) user resource = true).
Proof.
  intros s t user resource. unfold Evaluate; simpl.
  rewrite !rangePolicies_app. split; [reflexivity|].
  intros E. now rewrite E.
Qed.

Lemma Evaluate_app_witness :
  Evaluate (WithPolicies [testRule] (mkPolicyManager [scenarioRule]))
    (scenarioBUser "group1") (scenarioResource "namespace1") = true /\
  Evaluate (WithDefaultPolicies (mkPolicyManager [scenarioRule]))
    (scenarioBUser "group1") (scenarioResource "namespace1") = true.
Proof.
  refine (proj2 (Evaluate_app [scenarioRule] [testRule]
                   (scenarioBUser "group1") (scenarioResource "namespace1"))
                _).
  reflexivity.
Defined.

(** ** More on the matchers *)

(** X1: on a list with one entry [matchesSlice] decides what
    [matchesString] decides on that entry. *)
Theorem matchesSlice_singleton :
  forall pattern value : string,
    matchesSlice pattern [value] = matchesString pattern value.
Proof.
  intros pattern value. unfold matchesSlice, matchesString. simpl.
  rewrite (String.eqb_sym value pattern).
  destruct ((pattern =? "*") || (pattern =? "")); simpl; [reflexivity|].
  now destruct (pattern =? value).
Qed.

Lemma matchesSlice_incl pattern roles roles' :
  incl roles roles' ->
  matchesSlice pattern roles = true -> matchesSlice pattern roles' = true.
Proof.
  intros I. rewrite !matchesSlice_true.
  intros [W|H]; [now left | right; now apply I].
Qed.

Lemma matchPolicy_incl_roles rule user roles' resource :
  incl (UserAttributes.Roles user) roles' ->
  matchPolicy rule user resource = true ->
  matchPolicy rule (withRoles roles' user) resource = true.
Proof.
  intros I. unfold matchPolicy; simpl.
  rewrite !andb_true_iff.
  intros [[[[[[R U] G] Re] N] P] RO].
  repeat split; try assumption.
  now apply (matchesSlice_incl _ _ _ I).
Qed.

(** X2: giving a user more roles never takes a grant away: when every role
    of the user is in the new list, a request that [Evaluate] allows stays
    allowed. *)
Theorem more_roles_keep_access :
  forall (p : PolicyManager) (user : UserAttributes.t)
         (roles' : list string) (resource : ResourceAttributes.t),
    incl (UserAttributes.Roles user) roles' ->
    Evaluate p user resource = true ->
    Evaluate p (withRoles roles' user) resource = true.
Proof.
  intros p user roles' resource I. unfold Evaluate.
  rewrite !rangePolicies_true.
  intros (rule & HIn & Hm).
  exists rule. split; [exact HIn|].
  now apply matchPolicy_incl_roles.
Qed.

Lemma more_roles_keep_access_witness :
  Evaluate (storeOf [testRule])
    (withRoles ["dev"; "admin"]
       (UserAttributes.mk "user1" "group1" ["admin"]))
    (scenarioResource "namespace1") = true.
Proof.
  apply (more_roles_keep_access (storeOf [testRule])
           (UserAttributes.mk "user1" "group1" ["admin"])
           ["dev"; "admin"] (scenarioResource "namespace1")).
  - intros role [<-|[]]. right; left; reflexivity.
  - reflexivity.
Defined.

Lemma matchesSlice_wildcard_roles pattern roles :
  (forall role, In role roles -> Wildcard role) ->
  matchesSlice pattern roles = matchesSlice pattern [].
Proof.
  intros H. apply Bool.eq_iff_eq_true.
  rewrite !matchesSlice_true. simpl.
  split; intros [W|HIn]; try (now left); try contradiction.
  left. now apply H.
Qed.

(** X3: a role named ["*"] or [""] on the user's side is worth nothing: a
    user whose roles are all such strings is decided like a user with no
    role at all. *)
Theorem wildcard_roles_give_nothing :
  forall (p : PolicyManager) (user : UserAttributes.t)
         (resource : ResourceAttributes.t),
    (forall role, In role (UserAttributes.Roles user) -> Wildcard role) ->
    Evaluate p user resource = Evaluate p (withRoles [] user) resource.
Proof.
  intros p user resource H. unfold Evaluate.
  induction (policies p) as [|rule rest IH]; simpl; [reflexivity|].
  rewrite IH.
  replace (matchPolicy rule (withRoles [] user) resource)
    with (matchPolicy rule user resource); [reflexivity|].
  unfold matchPolicy; simpl.
  now rewrite (matchesSlice_wildcard_roles _ _ H).
Qed.

Lemma wildcard_roles_give_nothing_witness :
  Evaluate (NewPolicyManager [WithDefaultPolicies])
    (UserAttributes.mk "user1" "group1" ["*"; ""])
    (ResourceAttributes.mk "resource1" "namespace1" false) =
  Evaluate (NewPolicyManager [WithDefaultPolicies])
    (withRoles [] (UserAttributes.mk "user1" "group1" ["*"; ""]))
    (ResourceAttributes.mk "resource1" "namespace1" false).
Proof.
  apply (wildcard_roles_give_nothing (NewPolicyManager [WithDefaultPolicies])
           (UserAttributes.mk "user1" "group1" ["*"; ""])
           (ResourceAttributes.mk "resource1" "namespace1" false)).
  intros role [<-|[<-|[]]]; [left | right]; reflexivity.
Defined.

Lemma matchesString_wildcard_value pattern value :
  Wildcard value -> matchesString pattern value = true -> Wildcard pattern.
Proof.
  intros V. rewrite matchesString_true.
  intros [W|E]; [exact W | now subst].
Qed.

(** X4: the wildcard works in one direction only.  When a rule matches a
    request, each request value that is ["*"] or [""] (user id, group id,
    resource name, namespace) was matched by a wildcard pattern of the rule;
    a pattern naming a value never matches such a request value. *)
Theorem request_wildcards_need_wildcard_patterns :
  forall (rule : PolicySpec.t) (user : UserAttributes.t)
         (resource : ResourceAttributes.t),
    matchPolicy rule user resource = true ->
    (Wildcard (UserAttributes.UserID user) ->
     Wildcard (PolicySpec.User rule)) /\
    (Wildcard (UserAttributes.GroupID user) ->
     Wildcard (PolicySpec.Group rule)) /\
    (Wildcard (ResourceAttributes.Resource resource) ->
     Wildcard (PolicySpec.Resource rule) /\
     Wildcard (PolicySpec.NonResourcePath rule)) /\
    (Wildcard (ResourceAttributes.Namespace resource) ->
     Wildcard (PolicySpec.Namespace rule)).
Proof.
  intros rule user resource. unfold matchPolicy.
  rewrite !andb_true_iff.
  intros [[[[[[R U] G] Re] N] P] RO].
  split; [|split; [|split]]; intros V; [| |split|];
    eapply matchesString_wildcard_value; eassumption.
Qed.

Lemma request_wildcards_need_wildcard_patterns_witness :
  Wildcard (PolicySpec.User scenarioRule).
Proof.
  refine (proj1 (request_wildcards_need_wildcard_patterns scenarioRule
                   (UserAttributes.mk "*" "group1" ["admin"])
                   (scenarioResource "namespace1") _) _).
  - reflexivity.
  - left; reflexivity.
Defined.

Lemma append_cancel_l (prefix s t : string) :
  prefix ++ s = prefix ++ t -> s = t.
Proof.
  induction prefix as [|a prefix IH]; simpl; intros E.
  - exact E.
  - injection E as E. now apply IH.
Qed.

Lemma append_star_not_wildcard (prefix : string) :
  prefix <> "" -> ~ Wildcard (prefix ++ "*").
Proof.
  intros NE [E|E].
  - destruct prefix as [|a prefix]; [now apply NE|].
    simpl in E. injection E as _ E.
    destruct prefix; discriminate E.
  - destruct prefix; [now apply NE | discriminate E].
Qed.

(** X5: a ["*"] at the end of a longer pattern is an ordinary character:
    a rule whose NonResourcePath is [prefix ++ "*"], with a prefix that is
    not empty, does not match a request for [prefix ++ rest] unless [rest]
    is itself ["*"].  There is no prefix matching. *)
Theorem no_prefix_matching :
  forall (rule : PolicySpec.t) (user : UserAttributes.t)
         (resource : ResourceAttributes.t) (prefix rest : string),
    PolicySpec.NonResourcePath rule = prefix ++ "*" ->
    prefix <> "" ->
    ResourceAttributes.Resource resource = prefix ++ rest ->
    rest <> "*" ->
    matchPolicy rule user resource = false.
Proof.
  intros rule user resource prefix rest HP NE HR Hrest.
  destruct (matchPolicy rule user resource) eqn:E; [|reflexivity].
  apply matchPolicy_true in E.
  destruct E as (_ & _ & _ & _ & _ & [W|P] & _).
  - rewrite HP in W. now apply append_star_not_wildcard in W.
  - rewrite HP, HR in P. apply append_cancel_l in P. congruence.
Qed.

Lemma no_prefix_matching_witness :
  matchPolicy (PolicySpec.mk "*" "*" "*" "*" "*" true "/foo/*")
    (UserAttributes.mk "user1" "group1" ["admin"])
    (ResourceAttributes.mk "/foo/bar" "namespace1" true) = false.
Proof.
  apply (no_prefix_matching
           (PolicySpec.mk "*" "*" "*" "*" "*" true "/foo/*")
           (UserAttributes.mk "user1" "group1" ["admin"])
           (ResourceAttributes.mk "/foo/bar" "namespace1" true)
           "/foo/" "bar").
  - reflexivity.
  - discriminate.
  - reflexivity.
  - discriminate.
Defined.

(** ** More on evaluation *)

(** X6: the store built from the default policies alone allows a request
    exactly when the request is read-only or ["admin"] is among the user's
    roles; every other request is refused. *)
Theorem default_store_decision :
  forall (user : UserAttributes.t) (resource : ResourceAttributes.t),
    Evaluate (NewPolicyManager [WithDefaultPolicies]) user resource = true <->
    ResourceAttributes.ReadOnly resource = true \/
    In "admin" (UserAttributes.Roles user).
Proof.
  intros user resource.
  unfold Evaluate. simpl. unfold matchPolicy, matchesSlice. simpl.
  rewrite !andb_true_r.
  destruct (ResourceAttributes.ReadOnly resource); simpl.
  - split; [now left | reflexivity].
  - destruct (rangeList "admin" (UserAttributes.Roles user)) eqn:E.
    + apply rangeList_In in E. split; [now right | reflexivity].
    + split; [discriminate|].
      intros [H|H]; [discriminate H|].
      apply rangeList_In in H. congruence.
Qed.

Lemma rangePolicies_incl s t user resource :
  incl s t ->
  rangePolicies s user resource = true ->
  rangePolicies t user resource = true.
Proof.
  intros I. rewrite !rangePolicies_true.
  intros (rule & HIn & Hm). exists rule. split; [now apply I | exact Hm].
Qed.

(** X7: [Evaluate] looks at the set of rules only.  A store that holds
    every rule of another allows whatever the other allows, wherever the
    rules stand and however often they occur; two stores with the same
    rules decide every request alike. *)
Theorem Evaluate_set_of_rules :
  forall (s t : list PolicySpec.t) (user : UserAttributes.t)
         (resource : ResourceAttributes.t),
    incl s t ->
    (Evaluate (mkPolicyManager s) user resource = true ->
     Evaluate (mkPolicyManager t) user resource = true) /\
    (incl t s ->
     Evaluate (mkPolicyManager s) user resource =
     Evaluate (mkPolicyManager t) user resource).
Proof.
  intros s t user resource I. unfold Evaluate; simpl. split.
  - now apply rangePolicies_incl.
  - intros I'. apply Bool.eq_iff_eq_true.
    split; now apply rangePolicies_incl.
Qed.

Lemma Evaluate_set_of_rules_witness :
  Evaluate (mkPolicyManager [scenarioRule; testRule])
    (scenarioBUser "group1") (scenarioResource "namespace1") =
  Evaluate (mkPolicyManager [testRule; scenarioRule; testRule])
    (scenarioBUser "group1") (scenarioResource "namespace1").
Proof.
  refine (proj2 (Evaluate_set_of_rules [scenarioRule; testRule]
                   [testRule; scenarioRule; testRule]
                   (scenarioBUser "group1") (scenarioResource "namespace1")
                   _) _).
  - intros rule [<-|[<-|[]]]; simpl; tauto.
  - intros rule [<-|[<-|[<-|[]]]]; simpl; tauto.
Defined.

(** ** Building the store *)

Lemma policies_fold_WithPolicies lists p :
  policies (fold_left (fun p opt => opt p) (map WithPolicies lists) p) =
  (policies p ++ List.concat lists)%list.
Proof.
  revert p. induction lists as [|ps rest IH]; intros p; simpl.
  - now rewrite app_nil_r.
  - rewrite IH. simpl. now rewrite app_assoc.
Qed.

(** X8: [NewPolicyManager] applies its options in the order given, each
    [WithPolicies] appending its rules: the store built from a list of
    [WithPolicies] options holds the concatenation of their rule lists;
    [WithDefaultPolicies] is [WithPolicies] of the default table. *)
Theorem NewPolicyManager_concat :
  (forall lists : list (list PolicySpec.t),
     policies (NewPolicyManager (map WithPolicies lists)) =
     List.concat lists) /\
  (forall p, WithDefaultPolicies p = WithPolicies defaultPolicies p) /\
  (forall opts opts' : list PolicyOption,
     NewPolicyManager (opts ++ opts') =
     fold_left (fun p opt => opt p) opts' (NewPolicyManager opts)).
Proof.
  split; [|split].
  - intros lists. unfold NewPolicyManager.
    now rewrite policies_fold_WithPolicies.
  - reflexivity.
  - intros opts opts'. unfold NewPolicyManager. apply fold_left_app.
Qed.

Lemma rangePolicies_concat_Permutation lists lists' user resource :
  Permutation lists lists' ->
  rangePolicies (List.concat lists) user resource =
  rangePolicies (List.concat lists') user resource.
Proof.
  induction 1 as [|x l l' _ IH|x y l|l l' l'' _ IH1 _ IH2]; simpl.
  - reflexivity.
  - rewrite !rangePolicies_app. now rewrite IH.
  - rewrite !rangePolicies_app.
    now destruct (rangePolicies x user resource),
                 (rangePolicies y user resource).
  - now rewrite IH1.
Qed.

(** X9: the order in which [WithPolicies] options are passed to
    [NewPolicyManager] changes no decision: two stores built from the same
    options in a different order give the same [Evaluate] result. *)
Theorem option_order_irrelevant :
  forall (lists lists' : list (list PolicySpec.t))
         (user : UserAttributes.t) (resource : ResourceAttributes.t),
    Permutation lists lists' ->
    Evaluate (NewPolicyManager (map WithPolicies lists)) user resource =
    Evaluate (NewPolicyManager (map WithPolicies lists')) user resource.
Proof.
  intros lists lists' user resource P. unfold Evaluate, NewPolicyManager.
  rewrite !policies_fold_WithPolicies. simpl.
  now apply rangePolicies_concat_Permutation.
Qed.

Lemma option_order_irrelevant_witness :
  Evaluate (NewPolicyManager (map WithPolicies [defaultPolicies; [testRule]]))
    (scenarioBUser "group1") (scenarioResource "namespace1") =
  Evaluate (NewPolicyManager (map WithPolicies [[testRule]; defaultPolicies]))
    (scenarioBUser "group1") (scenarioResource "namespace1").
Proof.
  apply option_order_irrelevant.
  apply perm_swap.
Defined.

(** ** Nil arguments *)

Lemma matchPolicyPtr_Some policy u r :
  matchPolicyPtr policy (Some u) (Some r) = Ok (matchPolicy policy u r).
Proof.
  unfold matchPolicyPtr, matchPolicy. simpl.
  destruct (matchesSlice _ _); simpl; [|reflexivity].
  destruct (matchesString (PolicySpec.User policy) _); simpl; [|reflexivity].
  destruct (matchesString (PolicySpec.Group policy) _); simpl; reflexivity.
Qed.

(** X10: when neither pointer is nil, [Evaluate] does not panic and
    returns what the embedding over the pointed-to structs computes. *)
Theorem EvaluatePtr_not_nil :
  forall (p : PolicyManager) (u : UserAttributes.t)
         (r : ResourceAttributes.t),
    EvaluatePtr p (Some u) (Some r) = Ok (Evaluate p u r).
Proof.
  intros p u r. unfold EvaluatePtr, Evaluate.
  induction (policies p) as [|policy rest IH]; simpl; [reflexivity|].
  rewrite matchPolicyPtr_Some. simpl.
  now destruct (matchPolicy policy u r).
Qed.

(** X11: with a nil user, [Evaluate] returns false on the empty store and
    panics with a nil dereference on every other store, whatever the rules
    and the resource: the first rule already reads the user's roles. *)
Theorem EvaluatePtr_nil_user :
  forall (p : PolicyManager) (resource : option ResourceAttributes.t),
    (policies p = [] -> EvaluatePtr p None resource = Ok false) /\
    (policies p <> [] -> EvaluatePtr p None resource = Panic nilDereference).
Proof.
  intros p resource. unfold EvaluatePtr.
  destruct (policies p) as [|policy rest]; split; intros H.
  - reflexivity.
  - now elim H.
  - discriminate H.
  - reflexivity.
Qed.

Lemma EvaluatePtr_nil_user_witness :
  EvaluatePtr (NewPolicyManager [WithDefaultPolicies]) None
    (Some (scenarioResource "namespace1")) = Panic nilDereference.
Proof.
  refine (proj2 (EvaluatePtr_nil_user (NewPolicyManager [WithDefaultPolicies])
                   (Some (scenarioResource "namespace1"))) _).
  discriminate.
Defined.

(** X12: with a nil resource, [Evaluate] never returns true.  It panics
    with a nil dereference when some rule of the store matches the user by
    role, user id and group id, and returns false when no rule does. *)
Theorem EvaluatePtr_nil_resource :
  forall (p : PolicyManager) (u : UserAttributes.t),
    EvaluatePtr p (Some u) None =
    if existsb (fun policy => userSideMatches policy u) (policies p)
    then Panic nilDereference
    else Ok false.
Proof.
  intros p u. unfold EvaluatePtr.
  induction (policies p) as [|policy rest IH]; simpl; [reflexivity|].
  unfold matchPolicyPtr, userSideMatches at 1. simpl.
  destruct (matchesSlice _ _); simpl; [|exact IH].
  destruct (matchesString (PolicySpec.User policy) _); simpl; [|exact IH].
  destruct (matchesString (PolicySpec.Group policy) _); simpl;
    [reflexivity | exact IH].
Qed.

(** ** Policies from a file *)

Lemma applyOptions_app opts opts' p :
  applyOptions (opts ++ opts') p =
  (p' <- applyOptions opts p ;; applyOptions opts' p').
Proof.
  revert p. induction opts as [|opt rest IH]; intros p; simpl.
  - reflexivity.
  - destruct (opt p) as [p'|msg]; simpl; [apply IH | reflexivity].
Qed.

Lemma applyOptions_returning opts p :
  applyOptions (map returning opts) p =
  Ok (fold_left (fun p opt => opt p) opts p).
Proof.
  revert p. induction opts as [|opt rest IH]; intros p; simpl.
  - reflexivity.
  - unfold returning at 1. simpl. apply IH.
Qed.

(** X13: when the file opens and its content decodes to a list of rules,
    [WithPoliciesFromFile] does what [WithPolicies] does with that list:
    among options that return, the construction does not panic and gives
    the manager that [NewPolicyManager] builds with [WithPolicies] in its
    place. *)
Theorem WithPoliciesFromFile_decoded :
  forall (File : Type) (osOpen : string -> errorOr File)
         (decodePolicies : File -> errorOr (list PolicySpec.t))
         (filename : string) (file : File) (newPolicies : list PolicySpec.t)
         (before after : list PolicyOption),
    osOpen filename = Val file ->
    decodePolicies file = Val newPolicies ->
    NewPolicyManagerPanicking
      (map returning before ++
       WithPoliciesFromFile File osOpen decodePolicies filename ::
       map returning after) =
    Ok (NewPolicyManager (before ++ WithPolicies newPolicies :: after)).
Proof.
  intros File osOpen decodePolicies filename file newPolicies before after
         HO HD.
  unfold NewPolicyManagerPanicking, NewPolicyManager.
  rewrite applyOptions_app, applyOptions_returning. simpl.
  unfold WithPoliciesFromFile at 1. rewrite HO, HD. simpl.
  rewrite applyOptions_returning, fold_left_app. reflexivity.
Qed.

Lemma WithPoliciesFromFile_decoded_witness :
  NewPolicyManagerPanicking
    (map returning [WithDefaultPolicies] ++
     WithPoliciesFromFile string
       (fun name => if name =? "policies.json" then Val "[{}]"
                    else Err "open: no such file or directory")
       (fun content => if content =? "[{}]"
                       then Val [PolicySpec.mk "" "" "" "" "" false ""]
                       else Err "unexpected end of JSON input")
       "policies.json" ::
     map returning []) =
  Ok (NewPolicyManager
        ([WithDefaultPolicies] ++
         WithPolicies [PolicySpec.mk "" "" "" "" "" false ""] :: [])).
Proof.
  apply (WithPoliciesFromFile_decoded string _ _ "policies.json" "[{}]"
           [PolicySpec.mk "" "" "" "" "" false ""]
           [WithDefaultPolicies] []).
  - reflexivity.
  - reflexivity.
Defined.

(** X14: when the file cannot be opened, or its content cannot be decoded,
    the construction panics with the message of that failure: the options
    before it are lost, the options after it are not applied, and no manager
    with part of the policies is returned. *)
Theorem WithPoliciesFromFile_panics :
  forall (File : Type) (osOpen : string -> errorOr File)
         (decodePolicies : File -> errorOr (list PolicySpec.t))
         (filename err : string) (p : PolicyManager)
         (before after : list PanickingOption),
    applyOptions before (mkPolicyManager []) = Ok p ->
    (osOpen filename = Err err ->
     NewPolicyManagerPanicking
       (before ++
        WithPoliciesFromFile File osOpen decodePolicies filename :: after) =
     Panic ("failed to open policies file: " ++ err)) /\
    (forall file,
       osOpen filename = Val file ->
       decodePolicies file = Err err ->
       NewPolicyManagerPanicking
         (before ++
          WithPoliciesFromFile File osOpen decodePolicies filename :: after) =
       Panic ("failed to decode policies from file: " ++ err ++ newline)).
Proof.
  intros File osOpen decodePolicies filename err p before after HB.
  unfold NewPolicyManagerPanicking.
  rewrite applyOptions_app, HB. simpl.
  unfold WithPoliciesFromFile.
  split.
  - intros HO. now rewrite HO.
  - intros file HO HD. now rewrite HO, HD.
Qed.

Lemma WithPoliciesFromFile_panics_witness :
  NewPolicyManagerPanicking
    (map returning [WithDefaultPolicies] ++
     WithPoliciesFromFile string
       (fun name => Err "open policies.json: no such file or directory")
       (fun content => Val [])
       "policies.json" ::
     [returning (WithPolicies [testRule])]) =
  Panic ("failed to open policies file: " ++
         "open policies.json: no such file or directory").
Proof.
  refine (proj1 (WithPoliciesFromFile_panics string
                   (fun name =>
                      Err "open policies.json: no such file or directory")
                   (fun content => Val [])
                   "policies.json"
                   "open policies.json: no such file or directory"
                   (NewPolicyManager [WithDefaultPolicies])
                   (map returning [WithDefaultPolicies])
                   [returning (WithPolicies [testRule])] _) _).
  - reflexivity.
  - reflexivity.
Defined.
